(** * Unit of Work (package [uow]): a shallow embedding and its properties

    The development follows the Go sources:
    - [uow.go]: the [Runner] interface, the [UoW] coordinator, [New],
      [UoW.Get] and [UoW.Run];
    - the MongoDB runner [MongoTx] ([Ctx], [Get], [Rollback], [Commit]);
    - the mock runner [MockTx] with its shared [State], and the two tests
      [TestCommit] and [TestRollback].

    Go code is sequential here (one call chain per [Run]); every method is a
    state transformer on an explicit world, and the calls a function makes
    on its collaborators are recorded in a trace by the monad [Exec].
    Panics and non-termination of collaborators are outside the model: the
    runner's methods, the driver's methods and the caller's function are
    total functions.  The one panic that is modelled is that of
    [MongoTx.Get] on a nil context ([MongoTx_Get_call]). *)

From stdpp Require Import base option list strings gmap.

Open Scope string_scope.
Open Scope list_scope.

(** ** Go errors

    [error] holds the non-nil values of Go's [error] interface that occur
    in the package: leaves made by [errors.New] (a pointer to an
    [errorString], compared by address) and the two wrappers that
    [github.com/pkg/errors] allocates in [Wrap] and [Wrapf] (both have an
    [Unwrap] method since its version 0.9).  A Go value of type [error] is
    an [option error], [None] being [nil]. *)
Module errors.

Inductive error : Type :=
| errorString (addr : nat) (s : string)
| withMessage (cause : error) (msg : string)
| withStack (inner : error).

(** Go's [==] on two non-nil error values.  Leaves are compared by
    address; the wrappers, which Go compares by address too, are compared
    by what they hold, so two wrappers allocated apart around the same
    cause with the same message count as one. *)
Fixpoint error_eqb (a b : error) : bool :=
  match a, b with
  | errorString p s, errorString q t => Nat.eqb p q && String.eqb s t
  | withMessage c m, withMessage d n => error_eqb c d && String.eqb m n
  | withStack x, withStack y => error_eqb x y
  | _, _ => false
  end.

(** The [Error() string] method. *)
Fixpoint Error (e : error) : string :=
  match e with
  | errorString _ s => s
  | withMessage cause msg => msg +:+ ": " +:+ Error cause
  | withStack inner => Error inner
  end.

(** The [Unwrap() error] method ([errorString] has none). *)
Definition Unwrap (e : error) : option error :=
  match e with
  | errorString _ _ => None
  | withMessage cause _ => Some cause
  | withStack inner => Some inner
  end.

(** The loop of [errors.Is]: compare, then unwrap and go on. *)
Fixpoint is_ (err target : error) : bool :=
  error_eqb err target ||
  match err with
  | errorString _ _ => false
  | withMessage cause _ => is_ cause target
  | withStack inner => is_ inner target
  end.

(** [errors.Is(err, target)]. *)
Definition Is (err target : option error) : bool :=
  match err, target with
  | Some e, Some t => is_ e t
  | None, None => true
  | _, _ => false
  end.

(** The chain of an error: the error itself, then what [Unwrap] gives. *)
Fixpoint chain (e : error) : list error :=
  e :: match e with
       | errorString _ _ => []
       | withMessage cause _ => chain cause
       | withStack inner => chain inner
       end.

(** [errors.Wrap(err, message)] of pkg/errors: [nil] stays [nil]; otherwise
    a [withMessage] inside a [withStack] (the recorded call stack is not
    modelled). *)
Definition Wrap (err : option error) (message : string) : option error :=
  match err with
  | None => None
  | Some e => Some (withStack (withMessage e message))
  end.

(** The verb [%v] of [fmt.Sprintf] applied to an error value. *)
Definition fmt_v (e : option error) : string :=
  match e with
  | Some e => Error e
  | None => "<nil>"
  end.

(** [errors.Wrapf(err, format, args...)] once [format] and [args] have been
    rendered by [fmt.Sprintf]. *)
Definition Wrapf (err : option error) (rendered : string) : option error :=
  Wrap err rendered.

(** [needle] occurs in [hay]. *)
Definition occurs_in (needle hay : string) : Prop :=
  exists pre post, hay = pre +:+ needle +:+ post.

End errors.

Export errors(error, errorString, withMessage, withStack).

(** ** Contexts and the values behind [any] *)

(** [*mongo.Client], by address. *)
Record Client : Type := { client_addr : nat }.

(** [mongo.Session]: a session handle and the client it belongs to
    ([sess.Client()]). *)
Record Session : Type := { sess_id : nat; sess_client : Client }.

(** [*mongo.Database] as [client.Database(name)] builds it. *)
Record Database : Type := { db_client : Client; db_name : string }.

(** Values of Go's [context.Context]; [nil_ctx] is the nil interface. *)
Inductive context : Type :=
| nil_ctx
| Background
| WithValue (parent : context) (key val : string)
| SessionContext (parent : context) (sess : Session).

(** A pointer into the store of [State] objects. *)
Definition ptr := nat.

(** The dynamic values that a runner's [Get] returns as [any]. *)
Inductive any : Type :=
| any_nil
| any_State (p : ptr)
| any_Database (db : Database).

(** ** Traced state transformers *)

(** A computation over a world [W] that returns an [A] and the list of
    calls (of type [E]) it made on its collaborators, oldest first. *)
Definition Exec (E W A : Type) : Type := W -> A * W * list E.

Section Exec.
Context {E W : Type}.

Definition ret {A} (a : A) : Exec E W A := fun w => (a, w, []).

Definition bind {A B} (m : Exec E W A) (k : A -> Exec E W B) : Exec E W B :=
  fun w =>
    let '(a, w1, t1) := m w in
    let '(b, w2, t2) := k a w1 in
    (b, w2, t1 ++ t2).

(** Call a collaborator: run its state transformer, record the call. *)
Definition invoke {A} (c : E) (f : W -> A * W) : Exec E W A :=
  fun w => let '(a, w1) := f w in (a, w1, [c]).

(** What a traced computation does to the world, the trace dropped. *)
Definition effect {A} (m : Exec E W A) : W -> A * W :=
  fun w => let '(a, w1, _) := m w in (a, w1).

Definition result {A} (r : A * W * list E) : A := r.1.1.
Definition world {A} (r : A * W * list E) : W := r.1.2.
Definition trace {A} (r : A * W * list E) : list E := r.2.
End Exec.

#[global] Instance Exec_ret {E W} : MRet (Exec E W) := @ret E W.
#[global] Instance Exec_bind {E W} : MBind (Exec E W) :=
  fun A B k m => bind m k.

(** ** uow.go *)

(** The [Runner] interface: the method table of a runner value, each
    method a state transformer on the runner's world [W]. *)
Record Runner (W : Type) : Type := {
  Ctx : context -> W -> (context * option error) * W;
  Get : context -> W -> any * W;
  Commit : context -> W -> option error * W;
  Rollback : context -> W -> option error * W
}.
Arguments Ctx {W}.
Arguments Get {W}.
Arguments Commit {W}.
Arguments Rollback {W}.

(** The calls [UoW] makes: the four runner methods, and the function
    handed to [Run]. *)
Inductive Call : Type :=
| CallCtx (ctx : context)
| CallGet (ctx : context)
| CallCommit (ctx : context)
| CallRollback (ctx : context)
| CallFn (ctx : context).

Definition is_CallCommit (c : Call) : bool :=
  match c with CallCommit _ => true | _ => false end.
Definition is_CallRollback (c : Call) : bool :=
  match c with CallRollback _ => true | _ => false end.
Definition is_CallFn (c : Call) : bool :=
  match c with CallFn _ => true | _ => false end.

(** How many calls of a trace satisfy [p]. *)
Definition count (p : Call -> bool) (t : list Call) : nat :=
  length (List.filter p t).

Record UoW (W : Type) : Type := { runner : Runner W }.
Arguments runner {W}.

Definition New {W} (r : Runner W) : UoW W := {| runner := r |}.

Definition UoW_Get {W} (u : UoW W) (ctx : context) : Exec Call W any :=
  invoke (CallGet ctx) (Get (runner u) ctx).

Definition rollback_failed : string :=
  "operation failed and rollback also failed: rollback error: ".

Definition UoW_Run {W} (u : UoW W) (ctx : context)
    (fn : context -> W -> option error * W) : Exec Call W (option error) :=
  '(uowCtx, err) ← invoke (CallCtx ctx) (Ctx (runner u) ctx);
  match err with
  | Some _ => mret (errors.Wrap err "failed to start transaction")
  | None =>
      err ← invoke (CallFn uowCtx) (fn uowCtx);
      match err with
      | Some _ =>
          rbErr ← invoke (CallRollback uowCtx) (Rollback (runner u) uowCtx);
          match rbErr with
          | Some _ =>
              mret (errors.Wrapf err (rollback_failed +:+ errors.fmt_v rbErr))
          | None => mret err
          end
      | None => invoke (CallCommit uowCtx) (Commit (runner u) uowCtx)
      end
  end.

(** ** The MongoDB runner *)

(** The part of [go.mongodb.org/mongo-driver/mongo] that [MongoTx] calls.
    The driver is a library outside this package, so it is a parameter:
    its calls that talk to the server are state transformers on a driver
    world [D] and may fail in any way; the two context helpers are pure. *)
Record Driver (D : Type) : Type := {
  StartSession : Client -> D -> (Session * option error) * D;
  StartTransaction : Session -> D -> option error * D;
  AbortTransaction : Session -> context -> D -> option error * D;
  CommitTransaction : Session -> context -> D -> option error * D;
  EndSession : Session -> context -> D -> unit * D;
  NewSessionContext : context -> Session -> context;
  SessionFromContext : context -> option Session
}.
Arguments StartSession {D}.
Arguments StartTransaction {D}.
Arguments AbortTransaction {D}.
Arguments CommitTransaction {D}.
Arguments EndSession {D}.
Arguments NewSessionContext {D}.
Arguments SessionFromContext {D}.

(** The driver calls with an effect on the server or on a session. *)
Inductive DriverCall : Type :=
| DStartSession (c : Client)
| DStartTransaction (s : Session)
| DAbortTransaction (s : Session) (ctx : context)
| DCommitTransaction (s : Session) (ctx : context)
| DEndSession (s : Session) (ctx : context).

Definition is_DEndSession (c : DriverCall) : bool :=
  match c with DEndSession _ _ => true | _ => false end.

(** [client.Database(name)]: a handle, no server round trip. *)
Definition Client_Database (c : Client) (name : string) : Database :=
  {| db_client := c; db_name := name |}.

Record MongoTx : Type := { client : Client; dbName : string }.

Definition NewMongoTx (c : Client) (name : string) : MongoTx :=
  {| client := c; dbName := name |}.

Section Mongo.
Context {D : Type} (drv : Driver D).

Definition MongoTx_Ctx (m : MongoTx) (ctx : context)
    : Exec DriverCall D (context * option error) :=
  '(sess, err) ← invoke (DStartSession (client m)) (StartSession drv (client m));
  match err with
  | Some _ => mret (nil_ctx, err)
  | None =>
      err ← invoke (DStartTransaction sess) (StartTransaction drv sess);
      match err with
      | Some _ =>
          mret (nil_ctx, errors.Wrap err "error in starting transaction")
      | None => mret (NewSessionContext drv ctx sess, None)
      end
  end.

(** [Get] from the answer of [mongo.SessionFromContext] on: what it
    returns on a context the driver's lookup accepts.  The call on any
    value of type [context.Context], the nil one included, is
    [MongoTx_Get_call]. *)
Definition MongoTx_Get (m : MongoTx) (ctx : context) : any :=
  match SessionFromContext drv ctx with
  | Some sess => any_Database (Client_Database (sess_client sess) (dbName m))
  | None => any_Database (Client_Database (client m) (dbName m))
  end.

(** [defer sess.EndSession(ctx)] runs after the operand of [return] has
    been evaluated and before the method returns. *)
Definition MongoTx_Rollback (m : MongoTx) (ctx : context)
    : Exec DriverCall D (option error) :=
  match SessionFromContext drv ctx with
  | Some sess =>
      err ← invoke (DAbortTransaction sess ctx) (AbortTransaction drv sess ctx);
      _ ← invoke (DEndSession sess ctx) (EndSession drv sess ctx);
      mret err
  | None => mret None
  end.

Definition MongoTx_Commit (m : MongoTx) (ctx : context)
    : Exec DriverCall D (option error) :=
  match SessionFromContext drv ctx with
  | Some sess =>
      err ← invoke (DCommitTransaction sess ctx) (CommitTransaction drv sess ctx);
      _ ← invoke (DEndSession sess ctx) (EndSession drv sess ctx);
      mret err
  | None => mret None
  end.

(** A traced driver computation as a state transformer on the driver
    world together with the log of driver calls made so far. *)
Definition logged {A} (m : Exec DriverCall D A)
    : D * list DriverCall -> A * (D * list DriverCall) :=
  fun w => let '(a, d, t) := m w.1 in (a, (d, w.2 ++ t)).

(** [var _ Runner = &MongoTx{}] *)
Definition MongoTx_Runner (m : MongoTx) : Runner (D * list DriverCall) := {|
  Ctx := fun ctx => logged (MongoTx_Ctx m ctx);
  Get := fun ctx w => (MongoTx_Get m ctx, w);
  Commit := fun ctx => logged (MongoTx_Commit m ctx);
  Rollback := fun ctx => logged (MongoTx_Rollback m ctx)
|}.

End Mongo.

(** *** [Get] on a nil context *)

(** How a Go call ends: it returns a value, or it panics. *)
Inductive outcome (A : Type) : Type :=
| Returned (a : A)
| Panicked.
Arguments Returned {A}.
Arguments Panicked {A}.

Section MongoNil.
Context {D : Type} (drv : Driver D).

(** [mongo.SessionFromContext(ctx)] as Go runs it.  It begins with
    [ctx.Value(sessionKey{})], a method call on the interface value
    [ctx], which panics on the nil interface; on any other context it is
    the driver's lookup. *)
Definition mongo_SessionFromContext (ctx : context) : outcome (option Session) :=
  match ctx with
  | nil_ctx => Panicked
  | _ => Returned (SessionFromContext drv ctx)
  end.

(** The call [m.Get(ctx)]: a panic of its first statement ends it;
    otherwise it returns one of the two databases. *)
Definition MongoTx_Get_call (m : MongoTx) (ctx : context) : outcome any :=
  match mongo_SessionFromContext ctx with
  | Panicked => Panicked
  | Returned (Some sess) =>
      Returned (any_Database (Client_Database (sess_client sess) (dbName m)))
  | Returned None =>
      Returned (any_Database (Client_Database (client m) (dbName m)))
  end.

End MongoNil.

(** ** The mock runner *)

(** [State]; the mutex guards concurrent callers and has no sequential
    effect, so only [value] is kept. *)
Record State : Type := { value : string }.

(** The [State] objects allocated so far, by address. *)
Definition store : Type := gmap ptr State.

(** [s.value] for the object at [s] (the zero value where nothing is
    allocated). *)
Definition value_at (h : store) (s : ptr) : string :=
  match h !! s with
  | Some st => value st
  | None => ""
  end.

Definition State_SetValue (s : ptr) (str : string) : store -> unit * store :=
  fun h => (tt, <[s := {| value := str |}]> h).

Definition State_Value (s : ptr) : store -> string * store :=
  fun h => (value_at h s, h).

Definition State_Commit (s : ptr) : store -> unit * store :=
  fun h => (tt, <[s := {| value := value_at h s +:+ " commited!" |}]> h).

Definition State_Rollback (s : ptr) : store -> unit * store :=
  fun h => (tt, <[s := {| value := value_at h s +:+ " rolled back!" |}]> h).

Record MockTx : Type := { state : ptr }.

(** [&MockTx{state: &State{}}]: a fresh [State] holding the empty string. *)
Definition NewMockTx : store -> MockTx * store :=
  fun h =>
    let p := fresh (dom h) in
    ({| state := p |}, <[p := {| value := "" |}]> h).

Definition MockTx_Ctx (t : MockTx) (ctx : context)
    : store -> (context * option error) * store :=
  fun h => ((ctx, None), h).

Definition MockTx_Get (t : MockTx) (ctx : context) : store -> any * store :=
  fun h => (any_State (state t), h).

Definition MockTx_Rollback (t : MockTx) (ctx : context)
    : store -> option error * store :=
  fun h => let '(_, h1) := State_Rollback (state t) h in (None, h1).

Definition MockTx_Commit (t : MockTx) (ctx : context)
    : store -> option error * store :=
  fun h => let '(_, h1) := State_Commit (state t) h in (None, h1).

(** [var _ Runner = &MockTx{}] *)
Definition MockTx_Runner (t : MockTx) : Runner store := {|
  Ctx := MockTx_Ctx t;
  Get := MockTx_Get t;
  Commit := MockTx_Commit t;
  Rollback := MockTx_Rollback t
|}.

(** ** The tests of the package *)

(** [var ErrRollback = errors.New("rollback error")] *)
Definition ErrRollback : error := errorString 1 "rollback error".

(** The function literal of [TestCommit].  The type assertion to
    [*State] panics on any other dynamic type; [MockTx.Get] returns a
    [*State] only, and the branch for the others writes nothing. *)
Definition TestCommit_fn (txs : UoW store) (ctx : context)
    : store -> option error * store :=
  fun h =>
    let '(a, h1) := effect (UoW_Get txs ctx) h in
    match a with
    | any_State tx =>
        let '(_, h2) := State_SetValue tx "test state" h1 in (None, h2)
    | _ => (None, h1)
    end.

(** The function literal of [TestRollback]. *)
Definition TestRollback_fn (txs : UoW store) (ctx : context)
    : store -> option error * store :=
  fun h =>
    let '(a, h1) := effect (UoW_Get txs ctx) h in
    match a with
    | any_State tx =>
        let '(_, h2) := State_SetValue tx "test state" h1 in
        (Some ErrRollback, h2)
    | _ => (Some ErrRollback, h1)
    end.

(** [TestCommit] up to its assertions: the error of [Run] and the value
    read back through [mt.state.Value()]. *)
Definition TestCommit (h : store) : option error * string :=
  let ctx := Background in
  let '(mt, h1) := NewMockTx h in
  let txs := New (MockTx_Runner mt) in
  let '(err, h2, _) := UoW_Run txs ctx (TestCommit_fn txs) h1 in
  (err, (State_Value (state mt) h2).1).

(** [TestRollback] up to its assertions. *)
Definition TestRollback (h : store) : option error * string :=
  let ctx := Background in
  let '(mt, h1) := NewMockTx h in
  let txs := New (MockTx_Runner mt) in
  let '(err, h2, _) := UoW_Run txs ctx (TestRollback_fn txs) h1 in
  (err, (State_Value (state mt) h2).1).

(** ** A simulated driver

    A stand-in for a MongoDB server, used to run [MongoTx] on concrete
    inputs: [Faults] fixes which driver calls fail, and the server keeps
    the sessions that were started and not ended. *)
Record Faults : Type := {
  on_StartSession : option error;
  on_StartTransaction : option error;
  on_AbortTransaction : option error;
  on_CommitTransaction : option error
}.

Record Server : Type := {
  next_session : nat;
  open_sessions : list nat;
  committed : list nat;
  aborted : list nat
}.

Definition no_faults : Faults :=
  {| on_StartSession := None; on_StartTransaction := None;
     on_AbortTransaction := None; on_CommitTransaction := None |}.

Definition fresh_server : Server :=
  {| next_session := 0; open_sessions := []; committed := []; aborted := [] |}.

Definition no_session : Session :=
  {| sess_id := 0; sess_client := {| client_addr := 0 |} |}.

Definition sim_StartSession (f : Faults) (c : Client)
    : Server -> (Session * option error) * Server :=
  fun sv =>
    match on_StartSession f with
    | Some e => ((no_session, Some e), sv)
    | None =>
        let s := {| sess_id := next_session sv; sess_client := c |} in
        ((s, None),
         {| next_session := S (next_session sv);
            open_sessions := sess_id s :: open_sessions sv;
            committed := committed sv;
            aborted := aborted sv |})
    end.

Definition sim_StartTransaction (f : Faults) (s : Session)
    : Server -> option error * Server :=
  fun sv => (on_StartTransaction f, sv).

Definition sim_AbortTransaction (f : Faults) (s : Session) (ctx : context)
    : Server -> option error * Server :=
  fun sv =>
    match on_AbortTransaction f with
    | Some e => (Some e, sv)
    | None =>
        (None,
         {| next_session := next_session sv;
            open_sessions := open_sessions sv;
            committed := committed sv;
            aborted := sess_id s :: aborted sv |})
    end.

Definition sim_CommitTransaction (f : Faults) (s : Session) (ctx : context)
    : Server -> option error * Server :=
  fun sv =>
    match on_CommitTransaction f with
    | Some e => (Some e, sv)
    | None =>
        (None,
         {| next_session := next_session sv;
            open_sessions := open_sessions sv;
            committed := sess_id s :: committed sv;
            aborted := aborted sv |})
    end.

Definition sim_EndSession (s : Session) (ctx : context)
    : Server -> unit * Server :=
  fun sv =>
    (tt,
     {| next_session := next_session sv;
        open_sessions :=
          List.filter (fun i => negb (Nat.eqb i (sess_id s))) (open_sessions sv);
        committed := committed sv;
        aborted := aborted sv |}).

(** The session stored nearest to the top of a context, if any. *)
Fixpoint sim_SessionFromContext (ctx : context) : option Session :=
  match ctx with
  | nil_ctx => None
  | Background => None
  | WithValue parent _ _ => sim_SessionFromContext parent
  | SessionContext _ sess => Some sess
  end.

Definition SimDriver (f : Faults) : Driver Server := {|
  StartSession := sim_StartSession f;
  StartTransaction := sim_StartTransaction f;
  AbortTransaction := sim_AbortTransaction f;
  CommitTransaction := sim_CommitTransaction f;
  EndSession := sim_EndSession;
  NewSessionContext := SessionContext;
  SessionFromContext := sim_SessionFromContext
|}.

(** Inputs for runs on the simulated driver. *)
Definition sim_client : Client := {| client_addr := 7 |}.
Definition sim_tx : MongoTx := NewMongoTx sim_client "orders".
Definition sim_uow (f : Faults) : UoW (Server * list DriverCall) :=
  New (MongoTx_Runner (SimDriver f) sim_tx).
Definition sim_start : Server * list DriverCall := (fresh_server, []).
Definition sim_session : Session := {| sess_id := 0; sess_client := sim_client |}.
Definition sim_scoped : context := SessionContext Background sim_session.

Definition ErrAbort : error := errorString 2 "abort refused".
Definition ErrCommit : error := errorString 3 "write conflict".
Definition ErrConnect : error := errorString 4 "no reachable servers".
Definition ErrTxn : error := errorString 5 "transactions not supported".

Definition abort_fails : Faults :=
  {| on_StartSession := None; on_StartTransaction := None;
     on_AbortTransaction := Some ErrAbort; on_CommitTransaction := None |}.
Definition finish_fails : Faults :=
  {| on_StartSession := None; on_StartTransaction := None;
     on_AbortTransaction := Some ErrAbort;
     on_CommitTransaction := Some ErrCommit |}.
Definition connect_fails : Faults :=
  {| on_StartSession := Some ErrConnect; on_StartTransaction := None;
     on_AbortTransaction := None; on_CommitTransaction := None |}.
Definition txn_fails : Faults :=
  {| on_StartSession := None; on_StartTransaction := Some ErrTxn;
     on_AbortTransaction := None; on_CommitTransaction := None |}.

(** An operation that fails with [ErrRollback], and one that succeeds;
    neither touches the world. *)
Definition failing_fn {W} (_ : context) (w : W) : option error * W :=
  (Some ErrRollback, w).
Definition passing_fn {W} (_ : context) (w : W) : option error * W :=
  (None, w).

(** * Properties *)

(** ** Errors *)

Lemma append_assoc (a b c : string) : (a +:+ b) +:+ c = a +:+ b +:+ c.
Proof.
  induction a as [|ch a IH]; [reflexivity |].
  change (String ch ((a +:+ b) +:+ c) = String ch (a +:+ b +:+ c)).
  now rewrite IH.
Qed.

Lemma error_eqb_refl (e : error) : errors.error_eqb e e = true.
Proof.
  induction e as [p s | c IH m | i IH]; simpl.
  - now rewrite Nat.eqb_refl, String.eqb_refl.
  - now rewrite IH, String.eqb_refl.
  - exact IH.
Qed.

Lemma error_eqb_eq (a b : error) : errors.error_eqb a b = true <-> a = b.
Proof.
  split; [| intros ->; apply error_eqb_refl].
  revert b; induction a as [p s | c IH m | i IH]; intros [q t | d n | j];
    simpl; try discriminate.
  - intros [H1 H2]%andb_prop.
    apply Nat.eqb_eq in H1; apply String.eqb_eq in H2; congruence.
  - intros [H1 H2]%andb_prop.
    apply IH in H1; apply String.eqb_eq in H2; congruence.
  - intros H; apply IH in H; congruence.
Qed.

Lemma is_refl (e : error) : errors.is_ e e = true.
Proof. destruct e; simpl; rewrite ?error_eqb_refl, ?Nat.eqb_refl, ?String.eqb_refl; reflexivity. Qed.

(** [errors.Is] walks exactly the chain. *)
Lemma is_chain (e t : error) : errors.is_ e t = true <-> In t (errors.chain e).
Proof.
  induction e as [p s | c IH m | i IH]; cbn [errors.is_ errors.chain In];
    rewrite orb_true_iff, error_eqb_eq.
  - split; [intros [H | H]; [now left | discriminate] | intros [H | []]; now left].
  - rewrite IH; tauto.
  - rewrite IH; tauto.
Qed.

Lemma Wrap_Is (e : error) (msg : string) :
  errors.Is (errors.Wrap (Some e) msg) (Some e) = true.
Proof. simpl. rewrite is_refl. now rewrite !orb_true_r. Qed.

Lemma Wrap_Error (e : error) (msg : string) :
  errors.fmt_v (errors.Wrap (Some e) msg) = msg +:+ ": " +:+ errors.Error e.
Proof. reflexivity. Qed.

(** ** [UoW.Run] and [UoW.Get] over an arbitrary runner *)

Ltac unfold_exec :=
  unfold mbind, mret, Exec_bind, Exec_ret, bind, ret, invoke, effect,
    result, world, trace, count in *.

Ltac step_run :=
  unfold UoW_Run, UoW_Get; unfold_exec;
  repeat match goal with
         | H : ?lhs = (_, _) |- context [?lhs] => rewrite H; cbn -[String.append]
         end.

Section RunProperties.
Context {W : Type} (u : UoW W) (ctx : context).
Context (fn : context -> W -> option error * W).

(** The three paths of [Run] after a successful [Ctx], and the path of a
    failed [Ctx], as equations. *)
Lemma Run_acquire_failed uowCtx w w1 e :
  Ctx (runner u) ctx w = ((uowCtx, Some e), w1) ->
  UoW_Run u ctx fn w =
    (errors.Wrap (Some e) "failed to start transaction", w1, [CallCtx ctx]).
Proof. intros Hc. step_run. reflexivity. Qed.

Lemma Run_committed uowCtx w w1 w2 :
  Ctx (runner u) ctx w = ((uowCtx, None), w1) ->
  fn uowCtx w1 = (None, w2) ->
  UoW_Run u ctx fn w =
    ((Commit (runner u) uowCtx w2).1, (Commit (runner u) uowCtx w2).2,
     [CallCtx ctx; CallFn uowCtx; CallCommit uowCtx]).
Proof.
  intros Hc Hf. step_run.
  destruct (Commit (runner u) uowCtx w2) as [r w3]. reflexivity.
Qed.

Lemma Run_rolled_back uowCtx w w1 w2 w3 e :
  Ctx (runner u) ctx w = ((uowCtx, None), w1) ->
  fn uowCtx w1 = (Some e, w2) ->
  Rollback (runner u) uowCtx w2 = (None, w3) ->
  UoW_Run u ctx fn w =
    (Some e, w3, [CallCtx ctx; CallFn uowCtx; CallRollback uowCtx]).
Proof. intros Hc Hf Hr. step_run. reflexivity. Qed.

Lemma Run_rollback_failed uowCtx w w1 w2 w3 e rb :
  Ctx (runner u) ctx w = ((uowCtx, None), w1) ->
  fn uowCtx w1 = (Some e, w2) ->
  Rollback (runner u) uowCtx w2 = (Some rb, w3) ->
  UoW_Run u ctx fn w =
    (Some (withStack (withMessage e (rollback_failed +:+ errors.Error rb))),
     w3, [CallCtx ctx; CallFn uowCtx; CallRollback uowCtx]).
Proof. intros Hc Hf Hr. step_run. reflexivity. Qed.

(** [Run] returns nil on one path only: [Ctx] succeeded, the function
    returned nil, and [Commit], the last call, returned nil. *)
Lemma Run_nil_only_after_commit w :
  result (UoW_Run u ctx fn w) = None ->
  exists uowCtx w1 w2 w3,
    Ctx (runner u) ctx w = ((uowCtx, None), w1) /\
    fn uowCtx w1 = (None, w2) /\
    Commit (runner u) uowCtx w2 = (None, w3) /\
    UoW_Run u ctx fn w =
      (None, w3, [CallCtx ctx; CallFn uowCtx; CallCommit uowCtx]).
Proof.
  destruct (Ctx (runner u) ctx w) as [[uowCtx [e|]] w1] eqn:Hc.
  { rewrite (Run_acquire_failed _ _ _ _ Hc). discriminate. }
  destruct (fn uowCtx w1) as [[e|] w2] eqn:Hf.
  - destruct (Rollback (runner u) uowCtx w2) as [[rb|] w3] eqn:Hr.
    + rewrite (Run_rollback_failed _ _ _ _ _ _ _ Hc Hf Hr). discriminate.
    + rewrite (Run_rolled_back _ _ _ _ _ _ Hc Hf Hr). discriminate.
  - rewrite (Run_committed _ _ _ _ Hc Hf).
    destruct (Commit (runner u) uowCtx w2) as [r w3] eqn:Hm.
    unfold result; simpl. intros ->. now exists uowCtx, w1, w2, w3.
Qed.

(** C1: when the function returns an error [e] and [Rollback] on the scoped
    context returns an error [rb] as well, [Run] returns a combined error:
    [e] is in its chain, [errors.Is] finds [e] in it, and its message is
    the rollback notice, the text of [rb], then the text of [e]. *)
Theorem Run_rollback_failure_keeps_cause uowCtx w w1 w2 w3 e rb :
  Ctx (runner u) ctx w = ((uowCtx, None), w1) ->
  fn uowCtx w1 = (Some e, w2) ->
  Rollback (runner u) uowCtx w2 = (Some rb, w3) ->
  exists combined,
    result (UoW_Run u ctx fn w) = Some combined /\
    combined <> e /\
    In e (errors.chain combined) /\
    errors.Is (Some combined) (Some e) = true /\
    errors.Error combined =
      rollback_failed +:+ errors.Error rb +:+ ": " +:+ errors.Error e /\
    errors.occurs_in (errors.Error rb) (errors.Error combined).
Proof.
  intros Hc Hf Hr.
  exists (withStack (withMessage e (rollback_failed +:+ errors.Error rb))).
  rewrite (Run_rollback_failed _ _ _ _ _ _ _ Hc Hf Hr).
  split; [reflexivity |]. split.
  { intros H. apply (f_equal (fun x => length (errors.chain x))) in H.
    simpl in H. lia. }
  split; [apply is_chain; apply (Wrap_Is e) |].
  split; [apply (Wrap_Is e) |].
  assert (Hmsg : errors.Error
            (withStack (withMessage e (rollback_failed +:+ errors.Error rb))) =
          rollback_failed +:+ errors.Error rb +:+ ": " +:+ errors.Error e).
  { cbn [errors.Error]. apply append_assoc. }
  split; [exact Hmsg |].
  exists rollback_failed, (": " +:+ errors.Error e). exact Hmsg.
Qed.

(** C2: when the function returns an error [e] and [Rollback] returns nil,
    [Run] returns [e] itself, and its calls are [Ctx], the function and
    [Rollback]: [Commit] is not among them. *)
Theorem Run_returns_operation_error uowCtx w w1 w2 w3 e :
  Ctx (runner u) ctx w = ((uowCtx, None), w1) ->
  fn uowCtx w1 = (Some e, w2) ->
  Rollback (runner u) uowCtx w2 = (None, w3) ->
  result (UoW_Run u ctx fn w) = Some e /\
  trace (UoW_Run u ctx fn w) =
    [CallCtx ctx; CallFn uowCtx; CallRollback uowCtx] /\
  count is_CallCommit (trace (UoW_Run u ctx fn w)) = 0 /\
  (forall c, ~ In (CallCommit c) (trace (UoW_Run u ctx fn w))) /\
  world (UoW_Run u ctx fn w) = w3.
Proof.
  intros Hc Hf Hr. rewrite (Run_rolled_back _ _ _ _ _ _ Hc Hf Hr).
  repeat split; try reflexivity.
  intros c [H | [H | [H | []]]]; discriminate.
Qed.

(** C3: when [Ctx] returns an error [e], [Run] returns [e] wrapped with
    the message "failed to start transaction", the only call made is
    [Ctx], and the function plays no part: the world is the one [Ctx]
    left, and any other function gives the same outcome. *)
Theorem Run_acquisition_failure uowCtx w w1 e :
  Ctx (runner u) ctx w = ((uowCtx, Some e), w1) ->
  result (UoW_Run u ctx fn w) =
    Some (withStack (withMessage e "failed to start transaction")) /\
  errors.fmt_v (result (UoW_Run u ctx fn w)) =
    "failed to start transaction: " +:+ errors.Error e /\
  errors.Is (result (UoW_Run u ctx fn w)) (Some e) = true /\
  trace (UoW_Run u ctx fn w) = [CallCtx ctx] /\
  count is_CallFn (trace (UoW_Run u ctx fn w)) = 0 /\
  world (UoW_Run u ctx fn w) = w1 /\
  (forall fn', UoW_Run u ctx fn' w = UoW_Run u ctx fn w).
Proof.
  intros Hc. rewrite (Run_acquire_failed _ _ _ _ Hc).
  repeat split; try reflexivity.
  - apply (Wrap_Is e).
  - intros fn'. clear fn. step_run. reflexivity.
Qed.

(** C4: when [Ctx] succeeds and the function returns nil, [Run] calls
    [Commit] once, on the scoped context [Ctx] returned, does not call
    [Rollback], and returns what [Commit] returned; so it returns nil
    exactly when [Commit] did. *)
Theorem Run_success_commits uowCtx w w1 w2 :
  Ctx (runner u) ctx w = ((uowCtx, None), w1) ->
  fn uowCtx w1 = (None, w2) ->
  trace (UoW_Run u ctx fn w) =
    [CallCtx ctx; CallFn uowCtx; CallCommit uowCtx] /\
  List.filter is_CallCommit (trace (UoW_Run u ctx fn w)) =
    [CallCommit uowCtx] /\
  count is_CallCommit (trace (UoW_Run u ctx fn w)) = 1 /\
  count is_CallRollback (trace (UoW_Run u ctx fn w)) = 0 /\
  result (UoW_Run u ctx fn w) = (Commit (runner u) uowCtx w2).1 /\
  world (UoW_Run u ctx fn w) = (Commit (runner u) uowCtx w2).2 /\
  (result (UoW_Run u ctx fn w) = None <->
   (Commit (runner u) uowCtx w2).1 = None).
Proof.
  intros Hc Hf. rewrite (Run_committed _ _ _ _ Hc Hf).
  repeat split; try reflexivity; auto.
Qed.


(** C6: [UoW.Get] is the runner's [Get] and nothing else: it makes one
    call, [Get] of the wrapped runner on the context it was given, and
    returns that call's value and world as they are. *)
Theorem UoW_Get_passthrough (w : W) :
  result (UoW_Get u ctx w) = (Get (runner u) ctx w).1 /\
  world (UoW_Get u ctx w) = (Get (runner u) ctx w).2 /\
  trace (UoW_Get u ctx w) = [CallGet ctx] /\
  effect (UoW_Get u ctx) w = Get (runner u) ctx w /\
  UoW_Get u ctx = UoW_Get (New (runner u)) ctx.
Proof.
  unfold UoW_Get; unfold_exec.
  destruct (Get (runner u) ctx w) as [a w1]. repeat split; reflexivity.
Qed.

End RunProperties.

(** ** The MongoDB runner over an arbitrary driver *)

Section MongoProperties.
Context {D : Type} (drv : Driver D) (m : MongoTx).

(** On a context that is not nil the call returns, and what it returns
    is [MongoTx_Get]. *)
Lemma MongoTx_Get_call_returns (ctx : context) :
  ctx <> nil_ctx ->
  MongoTx_Get_call drv m ctx = Returned (MongoTx_Get drv m ctx).
Proof.
  intros Hnil. unfold MongoTx_Get_call, MongoTx_Get.
  destruct ctx; [contradiction | ..]; cbn [mongo_SessionFromContext];
    match goal with
    | |- context [SessionFromContext drv ?c] =>
        destruct (SessionFromContext drv c); reflexivity
    end.
Qed.

(** C7, amended: [MongoTx.Get] has no error result, and on every context
    that is not nil it returns a database handle named [dbName] (on the
    nil context the call panics).  On a context that is not nil and
    carries no session, the handle is the database [dbName] of the stored
    client; through the [Runner] interface the driver's world is left as
    it was. *)
Theorem MongoTx_Get_default (ctx : context) :
  ctx <> nil_ctx ->
  SessionFromContext drv ctx = None ->
  MongoTx_Get_call drv m ctx =
    Returned (any_Database (Client_Database (client m) (dbName m))) /\
  (forall w, Get (MongoTx_Runner drv m) ctx w =
     (any_Database {| db_client := client m; db_name := dbName m |}, w)) /\
  (forall c, c <> nil_ctx ->
     exists db,
       MongoTx_Get_call drv m c = Returned (any_Database db) /\
       db_name db = dbName m) /\
  (forall c w, (Get (MongoTx_Runner drv m) c w).2 = w).
Proof.
  intros Hnil Hs. rewrite (MongoTx_Get_call_returns ctx Hnil).
  unfold MongoTx_Runner, MongoTx_Get; cbn. rewrite Hs.
  split; [reflexivity |]. split; [reflexivity |]. split; [| reflexivity].
  intros c Hc. rewrite (MongoTx_Get_call_returns c Hc). unfold MongoTx_Get.
  destruct (SessionFromContext drv c) as [sess|].
  - now exists (Client_Database (sess_client sess) (dbName m)).
  - now exists (Client_Database (client m) (dbName m)).
Qed.

Lemma MongoTx_Commit_with_session ctx sess d :
  SessionFromContext drv ctx = Some sess ->
  MongoTx_Commit drv m ctx d =
    ((CommitTransaction drv sess ctx d).1,
     (EndSession drv sess ctx (CommitTransaction drv sess ctx d).2).2,
     [DCommitTransaction sess ctx; DEndSession sess ctx]).
Proof.
  intros Hs. unfold MongoTx_Commit. rewrite Hs. unfold_exec.
  destruct (CommitTransaction drv sess ctx d) as [err d1]; cbn.
  destruct (EndSession drv sess ctx d1) as [[] d2]. reflexivity.
Qed.

Lemma MongoTx_Rollback_with_session ctx sess d :
  SessionFromContext drv ctx = Some sess ->
  MongoTx_Rollback drv m ctx d =
    ((AbortTransaction drv sess ctx d).1,
     (EndSession drv sess ctx (AbortTransaction drv sess ctx d).2).2,
     [DAbortTransaction sess ctx; DEndSession sess ctx]).
Proof.
  intros Hs. unfold MongoTx_Rollback. rewrite Hs. unfold_exec.
  destruct (AbortTransaction drv sess ctx d) as [err d1]; cbn.
  destruct (EndSession drv sess ctx d1) as [[] d2]. reflexivity.
Qed.

(** C8: on a context that carries a session, [Commit] calls
    [CommitTransaction] and then [EndSession], [Rollback] calls
    [AbortTransaction] and then [EndSession]; each returns what its
    transaction call returned, error or nil, and leaves the world that
    [EndSession] made of the one the transaction call left. *)
Theorem MongoTx_finish_ends_session ctx sess d :
  SessionFromContext drv ctx = Some sess ->
  (result (MongoTx_Commit drv m ctx d) = (CommitTransaction drv sess ctx d).1 /\
   trace (MongoTx_Commit drv m ctx d) =
     [DCommitTransaction sess ctx; DEndSession sess ctx] /\
   world (MongoTx_Commit drv m ctx d) =
     (EndSession drv sess ctx (CommitTransaction drv sess ctx d).2).2) /\
  (result (MongoTx_Rollback drv m ctx d) = (AbortTransaction drv sess ctx d).1 /\
   trace (MongoTx_Rollback drv m ctx d) =
     [DAbortTransaction sess ctx; DEndSession sess ctx] /\
   world (MongoTx_Rollback drv m ctx d) =
     (EndSession drv sess ctx (AbortTransaction drv sess ctx d).2).2).
Proof.
  intros Hs.
  rewrite (MongoTx_Commit_with_session _ _ _ Hs).
  rewrite (MongoTx_Rollback_with_session _ _ _ Hs).
  repeat split.
Qed.

Lemma MongoTx_Ctx_transaction_failed ctx d sess d1 e d2 :
  StartSession drv (client m) d = ((sess, None), d1) ->
  StartTransaction drv sess d1 = (Some e, d2) ->
  MongoTx_Ctx drv m ctx d =
    ((nil_ctx,
      Some (withStack (withMessage e "error in starting transaction"))),
     d2, [DStartSession (client m); DStartTransaction sess]).
Proof.
  intros H1 H2. unfold MongoTx_Ctx. unfold_exec.
  rewrite H1; cbn. rewrite H2; cbn. reflexivity.
Qed.

(** C10: when [StartSession] succeeds and [StartTransaction] fails with
    [e], [Ctx] returns a nil context and [e] wrapped with "error in
    starting transaction"; its driver calls are [StartSession] and
    [StartTransaction], so [EndSession] is not called and the world is the
    one [StartTransaction] left.  A [Run] on this runner then stops after
    [Ctx]: it calls neither [Commit] nor [Rollback], and adds no
    [EndSession] to the log of driver calls. *)
Theorem MongoTx_Ctx_leaves_session_open ctx d sess d1 e d2 :
  StartSession drv (client m) d = ((sess, None), d1) ->
  StartTransaction drv sess d1 = (Some e, d2) ->
  result (MongoTx_Ctx drv m ctx d) =
    (nil_ctx, Some (withStack (withMessage e "error in starting transaction"))) /\
  trace (MongoTx_Ctx drv m ctx d) =
    [DStartSession (client m); DStartTransaction sess] /\
  List.filter is_DEndSession (trace (MongoTx_Ctx drv m ctx d)) = [] /\
  world (MongoTx_Ctx drv m ctx d) = d2 /\
  (forall fn log,
     trace (UoW_Run (New (MongoTx_Runner drv m)) ctx fn (d, log)) =
       [CallCtx ctx] /\
     world (UoW_Run (New (MongoTx_Runner drv m)) ctx fn (d, log)) =
       (d2, log ++ [DStartSession (client m); DStartTransaction sess])).
Proof.
  intros H1 H2.
  pose proof (MongoTx_Ctx_transaction_failed ctx _ _ _ _ _ H1 H2) as Hctx.
  rewrite Hctx. repeat split.
  all: erewrite Run_acquire_failed; [reflexivity |];
    cbn; unfold logged; cbn; rewrite Hctx; reflexivity.
Qed.

End MongoProperties.

(** ** The mock runner *)

Lemma value_at_insert (h : store) (p : ptr) (st : State) :
  value_at (<[p := st]> h) p = value st.
Proof. unfold value_at, store in *. now rewrite lookup_insert_eq. Qed.

Lemma MockTx_Rollback_appends (t : MockTx) (ctx : context) (h : store) :
  MockTx_Rollback t ctx h =
    (None, <[state t := {| value := value_at h (state t) +:+ " rolled back!" |}]> h).
Proof. reflexivity. Qed.

(** C9: over the mock runner, when the function leaves "test state" in
    the shared [State] and returns a sentinel error, [Run] returns that
    sentinel, [errors.Is] matches it, and the value read back through the
    runner's [State] is "test state rolled back!". *)
Theorem MockTx_rollback_scenario (t : MockTx) (ctx : context)
    (fn : context -> store -> option error * store)
    (h h' : store) (sentinel : error) :
  fn ctx h = (Some sentinel, h') ->
  value_at h' (state t) = "test state" ->
  result (UoW_Run (New (MockTx_Runner t)) ctx fn h) = Some sentinel /\
  errors.Is (result (UoW_Run (New (MockTx_Runner t)) ctx fn h))
    (Some sentinel) = true /\
  (State_Value (state t)
     (world (UoW_Run (New (MockTx_Runner t)) ctx fn h))).1 =
    "test state rolled back!".
Proof.
  intros Hf Hv.
  rewrite (Run_rolled_back (New (MockTx_Runner t)) ctx fn ctx h h h' _ sentinel
             eq_refl Hf (MockTx_Rollback_appends t ctx h')).
  unfold result, world; cbn -[String.append value_at].
  split; [reflexivity |]. split; [apply is_refl |].
  rewrite value_at_insert; cbn -[String.append]. now rewrite Hv.
Qed.

(** The two tests pass, whatever was allocated before them. *)
Lemma TestRollback_passes (h : store) :
  TestRollback h = (Some ErrRollback, "test state rolled back!").
Proof.
  unfold TestRollback, NewMockTx.
  set (p := fresh (dom h)). set (mt := {| state := p |}).
  set (h1 := <[p := {| value := "" |}]> h).
  set (txs := New (MockTx_Runner mt)).
  rewrite (Run_rolled_back txs Background (TestRollback_fn txs) Background
             h1 h1 (<[p := {| value := "test state" |}]> h1) _ ErrRollback
             eq_refl eq_refl (MockTx_Rollback_appends mt Background _)).
  cbn -[String.append value_at]. now rewrite !value_at_insert.
Qed.

Lemma TestCommit_passes (h : store) :
  TestCommit h = (None, "test state commited!").
Proof.
  unfold TestCommit, NewMockTx.
  set (p := fresh (dom h)). set (mt := {| state := p |}).
  set (h1 := <[p := {| value := "" |}]> h).
  set (txs := New (MockTx_Runner mt)).
  rewrite (Run_committed txs Background (TestCommit_fn txs) Background
             h1 h1 (<[p := {| value := "test state" |}]> h1)
             eq_refl eq_refl).
  cbn -[String.append value_at]. now rewrite !value_at_insert.
Qed.

(** ** Runs on concrete inputs *)

(** After a failed [StartTransaction] the simulated server still holds
    the session that [Ctx] started. *)
Example sim_session_left_open :
  open_sessions
    (world (MongoTx_Ctx (SimDriver txn_fails) sim_tx Background fresh_server))
  = [0].
Proof. reflexivity. Qed.

(** On the paths that end in [Commit] or [Rollback] the session is gone,
    also when the transaction call failed. *)
Example sim_session_ended_after_failed_abort :
  (world (UoW_Run (sim_uow abort_fails) Background failing_fn sim_start)).1
  = {| next_session := 1; open_sessions := []; committed := []; aborted := [] |}.
Proof. reflexivity. Qed.

Lemma Run_rollback_failure_keeps_cause_witness :
  exists combined,
    result (UoW_Run (sim_uow abort_fails) Background failing_fn sim_start)
      = Some combined /\
    combined <> ErrRollback /\
    In ErrRollback (errors.chain combined) /\
    errors.Is (Some combined) (Some ErrRollback) = true /\
    errors.Error combined =
      rollback_failed +:+ errors.Error ErrAbort +:+ ": "
        +:+ errors.Error ErrRollback /\
    errors.occurs_in (errors.Error ErrAbort) (errors.Error combined).
Proof.
  eapply (Run_rollback_failure_keeps_cause (sim_uow abort_fails) Background
            failing_fn sim_scoped sim_start _ _ _ ErrRollback ErrAbort);
    reflexivity.
Defined.

Lemma Run_returns_operation_error_witness :
  result (UoW_Run (sim_uow no_faults) Background failing_fn sim_start)
    = Some ErrRollback /\
  count is_CallCommit
    (trace (UoW_Run (sim_uow no_faults) Background failing_fn sim_start)) = 0.
Proof.
  pose proof (Run_returns_operation_error (sim_uow no_faults) Background
                failing_fn sim_scoped sim_start _ _ _ ErrRollback
                eq_refl eq_refl eq_refl) as (Hres & _ & Hcount & _).
  exact (conj Hres Hcount).
Defined.

Lemma Run_acquisition_failure_witness :
  Ctx (runner (sim_uow connect_fails)) Background sim_start
    = ((nil_ctx, Some ErrConnect),
       (fresh_server, [DStartSession sim_client])) /\
  errors.fmt_v
    (result (UoW_Run (sim_uow connect_fails) Background failing_fn sim_start))
    = "failed to start transaction: no reachable servers" /\
  trace (UoW_Run (sim_uow connect_fails) Background failing_fn sim_start)
    = [CallCtx Background].
Proof.
  split; [reflexivity |].
  pose proof (Run_acquisition_failure (sim_uow connect_fails) Background
                failing_fn nil_ctx sim_start _ ErrConnect eq_refl)
    as (_ & Hmsg & _ & Htrace & _).
  exact (conj Hmsg Htrace).
Defined.

Lemma Run_success_commits_witness :
  trace (UoW_Run (sim_uow no_faults) Background passing_fn sim_start)
    = [CallCtx Background; CallFn sim_scoped; CallCommit sim_scoped] /\
  result (UoW_Run (sim_uow no_faults) Background passing_fn sim_start) = None.
Proof.
  pose proof (Run_success_commits (sim_uow no_faults) Background
                passing_fn sim_scoped sim_start _ _ eq_refl eq_refl)
    as (Htrace & _ & _ & _ & Hres & _).
  exact (conj Htrace Hres).
Defined.


Lemma MongoTx_Get_default_witness :
  WithValue Background "request" "42" <> nil_ctx /\
  sim_SessionFromContext (WithValue Background "request" "42") = None /\
  MongoTx_Get_call (SimDriver no_faults) sim_tx
    (WithValue Background "request" "42")
    = Returned (any_Database {| db_client := sim_client; db_name := "orders" |}).
Proof.
  split; [discriminate |]. split; [reflexivity |].
  destruct (MongoTx_Get_default (SimDriver no_faults) sim_tx
              (WithValue Background "request" "42")) as [Hdb _];
    [discriminate | reflexivity | exact Hdb].
Defined.

(** On the nil context the call does not return: [Get] is not total over
    the values of [context.Context]. *)
Lemma MongoTx_Get_nil_context_panics :
  MongoTx_Get_call (SimDriver no_faults) sim_tx nil_ctx = Panicked /\
  ~ (forall ctx, exists a,
       MongoTx_Get_call (SimDriver no_faults) sim_tx ctx = Returned a).
Proof.
  split; [reflexivity |].
  intros H. destruct (H nil_ctx) as [a Ha]. discriminate Ha.
Qed.

Lemma MongoTx_finish_ends_session_witness :
  MongoTx_Commit (SimDriver finish_fails) sim_tx sim_scoped
      (sim_StartSession finish_fails sim_client fresh_server).2
    = (Some ErrCommit,
       {| next_session := 1; open_sessions := []; committed := []; aborted := [] |},
       [DCommitTransaction sim_session sim_scoped;
        DEndSession sim_session sim_scoped]) /\
  trace (MongoTx_Rollback (SimDriver finish_fails) sim_tx sim_scoped
           (sim_StartSession finish_fails sim_client fresh_server).2)
    = [DAbortTransaction sim_session sim_scoped;
       DEndSession sim_session sim_scoped].
Proof.
  split; [reflexivity |].
  pose proof (MongoTx_finish_ends_session (SimDriver finish_fails) sim_tx
                sim_scoped sim_session
                (sim_StartSession finish_fails sim_client fresh_server).2
                eq_refl) as (_ & _ & Htrace & _).
  exact Htrace.
Defined.

Lemma MongoTx_Ctx_leaves_session_open_witness :
  result (MongoTx_Ctx (SimDriver txn_fails) sim_tx Background fresh_server)
    = (nil_ctx,
       Some (withStack (withMessage ErrTxn "error in starting transaction"))) /\
  List.filter is_DEndSession
    (trace (MongoTx_Ctx (SimDriver txn_fails) sim_tx Background fresh_server))
    = [].
Proof.
  pose proof (MongoTx_Ctx_leaves_session_open (SimDriver txn_fails) sim_tx
                Background fresh_server sim_session _ ErrTxn _
                eq_refl eq_refl) as (Hres & _ & Hend & _).
  exact (conj Hres Hend).
Defined.

Lemma MockTx_rollback_scenario_witness :
  (TestRollback_fn (New (MockTx_Runner {| state := 0 |})) Background
     {[ 0 := {| value := "" |} ]}).1 = Some ErrRollback /\
  (State_Value 0
     (world (UoW_Run (New (MockTx_Runner {| state := 0 |})) Background
               (TestRollback_fn (New (MockTx_Runner {| state := 0 |})))
               {[ 0 := {| value := "" |} ]}))).1
    = "test state rolled back!".
Proof.
  split; [reflexivity |].
  exact (proj2 (proj2
    (MockTx_rollback_scenario {| state := 0 |} Background
       (TestRollback_fn (New (MockTx_Runner {| state := 0 |})))
       {[ 0 := {| value := "" |} ]}
       (<[ 0 := {| value := "test state" |} ]> {[ 0 := {| value := "" |} ]})
       ErrRollback eq_refl eq_refl))).
Defined.

(** * Further properties *)

(** ** Error chains through [Run] *)

Lemma length_append (a b : string) :
  String.length (a +:+ b) = String.length a + String.length b.
Proof.
  induction a as [|ch a IH]; [reflexivity |].
  change (S (String.length (a +:+ b)) = S (String.length a + String.length b)).
  now rewrite IH.
Qed.

(** Wrapping keeps every target that the wrapped error matches. *)
Lemma is_wrapped (e t : error) (msg : string) :
  errors.is_ e t = true ->
  errors.is_ (withStack (withMessage e msg)) t = true.
Proof. intros H. cbn [errors.is_]. rewrite H. now rewrite !orb_true_r. Qed.

(** The wrappers that [Wrapf] builds around [e] to report [rb] are not
    [rb]: their text is longer than the text of [rb]. *)
Lemma combined_not_rollback_error (e rb : error) :
  withStack (withMessage e (rollback_failed +:+ errors.Error rb)) <> rb /\
  withMessage e (rollback_failed +:+ errors.Error rb) <> rb.
Proof.
  split; intros H; apply (f_equal (fun x => String.length (errors.Error x))) in H;
    cbn [errors.Error] in H; rewrite !length_append in H;
    change (String.length ": ") with 2 in H; lia.
Qed.

Section RunErrors.
Context {W : Type} (u : UoW W) (ctx : context).
Context (fn : context -> W -> option error * W).

(** X1: [Run] returns nil exactly when [Ctx] returned no error, the
    function returned nil on the scoped context and [Commit] then
    returned nil: a failure of any of the three is reported. *)
Theorem Run_nil_iff_committed (w : W) :
  result (UoW_Run u ctx fn w) = None <->
  exists uowCtx w1 w2 w3,
    Ctx (runner u) ctx w = ((uowCtx, None), w1) /\
    fn uowCtx w1 = (None, w2) /\
    Commit (runner u) uowCtx w2 = (None, w3).
Proof.
  split.
  - intros H. apply Run_nil_only_after_commit in H.
    destruct H as (uowCtx & w1 & w2 & w3 & Hc & Hf & Hm & _).
    now exists uowCtx, w1, w2, w3.
  - intros (uowCtx & w1 & w2 & w3 & Hc & Hf & Hm).
    rewrite (Run_committed _ _ _ _ _ _ _ Hc Hf), Hm. reflexivity.
Qed.

(** X2: when the function returns an error [e], every target that
    [errors.Is] finds in [e] is found in what [Run] returns, whether
    [Rollback] succeeds or fails. *)
Theorem Run_preserves_cause uowCtx w w1 w2 e t :
  Ctx (runner u) ctx w = ((uowCtx, None), w1) ->
  fn uowCtx w1 = (Some e, w2) ->
  errors.Is (Some e) (Some t) = true ->
  errors.Is (result (UoW_Run u ctx fn w)) (Some t) = true.
Proof.
  intros Hc Hf Ht.
  destruct (Rollback (runner u) uowCtx w2) as [[rb|] w3] eqn:Hr.
  - rewrite (Run_rollback_failed _ _ _ _ _ _ _ _ _ _ Hc Hf Hr).
    apply is_wrapped, Ht.
  - rewrite (Run_rolled_back _ _ _ _ _ _ _ _ _ Hc Hf Hr). exact Ht.
Qed.

(** X3: when the function fails with [e] and [Rollback] fails with [rb],
    the error [Run] returns carries [rb] as text only: [errors.Is] does
    not find [rb] in it, unless [rb] is already in the chain of [e]. *)
Theorem Run_rollback_error_not_in_chain uowCtx w w1 w2 w3 e rb :
  Ctx (runner u) ctx w = ((uowCtx, None), w1) ->
  fn uowCtx w1 = (Some e, w2) ->
  Rollback (runner u) uowCtx w2 = (Some rb, w3) ->
  ~ In rb (errors.chain e) ->
  errors.Is (result (UoW_Run u ctx fn w)) (Some rb) = false.
Proof.
  intros Hc Hf Hr Hnot.
  rewrite (Run_rollback_failed _ _ _ _ _ _ _ _ _ _ Hc Hf Hr).
  unfold result; cbn [fst errors.Is errors.is_].
  destruct (combined_not_rollback_error e rb) as [H1 H2].
  rewrite <- error_eqb_eq in H1, H2.
  apply not_true_is_false in H1, H2. rewrite H1, H2. cbn [orb].
  apply not_true_is_false. now rewrite is_chain.
Qed.

End RunErrors.

Lemma Run_preserves_cause_witness :
  errors.Is
    (result (UoW_Run (sim_uow abort_fails) Background failing_fn sim_start))
    (Some ErrRollback) = true.
Proof.
  exact (Run_preserves_cause (sim_uow abort_fails) Background failing_fn
           sim_scoped sim_start _ _ ErrRollback ErrRollback
           eq_refl eq_refl eq_refl).
Defined.

Lemma Run_rollback_error_not_in_chain_witness :
  errors.Is
    (result (UoW_Run (sim_uow abort_fails) Background failing_fn sim_start))
    (Some ErrAbort) = false.
Proof.
  apply (Run_rollback_error_not_in_chain (sim_uow abort_fails) Background
           failing_fn sim_scoped sim_start _ _ _ ErrRollback ErrAbort
           eq_refl eq_refl eq_refl).
  intros [H | []]; discriminate H.
Defined.

(** ** The MongoDB runner: the other paths of [Ctx], and [Run] over it *)

Section MongoFurther.
Context {D : Type} (drv : Driver D) (m : MongoTx).

Lemma MongoTx_Ctx_session_failed ctx d sess e d1 :
  StartSession drv (client m) d = ((sess, Some e), d1) ->
  MongoTx_Ctx drv m ctx d = ((nil_ctx, Some e), d1, [DStartSession (client m)]).
Proof.
  intros H1. unfold MongoTx_Ctx. unfold_exec. rewrite H1; cbn. reflexivity.
Qed.

Lemma MongoTx_Ctx_started ctx d sess d1 d2 :
  StartSession drv (client m) d = ((sess, None), d1) ->
  StartTransaction drv sess d1 = (None, d2) ->
  MongoTx_Ctx drv m ctx d =
    ((NewSessionContext drv ctx sess, None), d2,
     [DStartSession (client m); DStartTransaction sess]).
Proof.
  intros H1 H2. unfold MongoTx_Ctx. unfold_exec.
  rewrite H1; cbn. rewrite H2; cbn. reflexivity.
Qed.

(** X4: when [StartSession] fails with [e], [Ctx] returns a nil context
    and [e] itself, not wrapped, after that one driver call: no
    transaction is started and nothing is there to end.  [Run] then
    reports "failed to start transaction: " followed by the text of [e],
    and calls neither the function nor [Commit] nor [Rollback]. *)
Theorem MongoTx_Ctx_session_failure ctx d sess e d1 :
  StartSession drv (client m) d = ((sess, Some e), d1) ->
  MongoTx_Ctx drv m ctx d = ((nil_ctx, Some e), d1, [DStartSession (client m)]) /\
  (forall fn log,
     result (UoW_Run (New (MongoTx_Runner drv m)) ctx fn (d, log)) =
       Some (withStack (withMessage e "failed to start transaction")) /\
     errors.fmt_v (result (UoW_Run (New (MongoTx_Runner drv m)) ctx fn (d, log))) =
       "failed to start transaction: " +:+ errors.Error e /\
     trace (UoW_Run (New (MongoTx_Runner drv m)) ctx fn (d, log)) =
       [CallCtx ctx] /\
     world (UoW_Run (New (MongoTx_Runner drv m)) ctx fn (d, log)) =
       (d1, log ++ [DStartSession (client m)])).
Proof.
  intros H1.
  pose proof (MongoTx_Ctx_session_failed ctx _ _ _ _ H1) as Hctx.
  split; [exact Hctx |]. intros fn log.
  erewrite Run_acquire_failed;
    [| cbn; unfold logged; cbn; rewrite Hctx; reflexivity].
  repeat split.
Qed.

(** X5: when [StartTransaction] fails with [e], what [Run] returns is [e]
    wrapped twice: its text is "failed to start transaction: error in
    starting transaction: " followed by the text of [e], and [errors.Is]
    still finds [e], and every target [e] matches, in it. *)
Theorem MongoTx_Run_transaction_failure ctx fn d log sess d1 e d2 t :
  StartSession drv (client m) d = ((sess, None), d1) ->
  StartTransaction drv sess d1 = (Some e, d2) ->
  errors.Is (Some e) (Some t) = true ->
  errors.fmt_v (result (UoW_Run (New (MongoTx_Runner drv m)) ctx fn (d, log))) =
    "failed to start transaction: error in starting transaction: "
      +:+ errors.Error e /\
  errors.Is (result (UoW_Run (New (MongoTx_Runner drv m)) ctx fn (d, log)))
    (Some e) = true /\
  errors.Is (result (UoW_Run (New (MongoTx_Runner drv m)) ctx fn (d, log)))
    (Some t) = true.
Proof.
  intros H1 H2 Ht.
  pose proof (MongoTx_Ctx_transaction_failed drv m ctx _ _ _ _ _ H1 H2) as Hctx.
  erewrite Run_acquire_failed;
    [| cbn; unfold logged; cbn; rewrite Hctx; reflexivity].
  split; [reflexivity |]. split.
  - apply is_wrapped, is_wrapped, is_refl.
  - apply is_wrapped, is_wrapped, Ht.
Qed.

(** X6: when both driver calls succeed, [Ctx] returns the session context
    the driver built from the caller's context and nil.  With a driver
    that finds in a session context the session put there, [Get] on that
    context is the database [dbName] of the session's client, and not of
    the stored client. *)
Theorem MongoTx_Ctx_success ctx d sess d1 d2 :
  (forall c s, SessionFromContext drv (NewSessionContext drv c s) = Some s) ->
  StartSession drv (client m) d = ((sess, None), d1) ->
  StartTransaction drv sess d1 = (None, d2) ->
  MongoTx_Ctx drv m ctx d =
    ((NewSessionContext drv ctx sess, None), d2,
     [DStartSession (client m); DStartTransaction sess]) /\
  MongoTx_Get drv m (result (MongoTx_Ctx drv m ctx d)).1 =
    any_Database {| db_client := sess_client sess; db_name := dbName m |}.
Proof.
  intros Hlaw H1 H2. rewrite (MongoTx_Ctx_started ctx _ _ _ _ H1 H2).
  split; [reflexivity |].
  unfold MongoTx_Get, result; cbn. now rewrite Hlaw.
Qed.

(** X7: a whole [Run] over [MongoTx], with a driver that finds in a
    session context the session put there.  Once the session and the
    transaction have started, [Run] appends two driver calls to those the
    function left in the log: [CommitTransaction] when the function
    returned nil, [AbortTransaction] when it returned an error, and then
    [EndSession], each on the session [Ctx] started; the world is the
    one [EndSession] leaves. *)
Theorem MongoTx_Run_ends_session ctx fn d log sess d1 d2 r d3 log3 :
  (forall c s, SessionFromContext drv (NewSessionContext drv c s) = Some s) ->
  StartSession drv (client m) d = ((sess, None), d1) ->
  StartTransaction drv sess d1 = (None, d2) ->
  fn (NewSessionContext drv ctx sess)
     (d2, log ++ [DStartSession (client m); DStartTransaction sess]) =
    (r, (d3, log3)) ->
  let uowCtx := NewSessionContext drv ctx sess in
  let run := UoW_Run (New (MongoTx_Runner drv m)) ctx fn (d, log) in
  match r with
  | None =>
      result run = (CommitTransaction drv sess uowCtx d3).1 /\
      world run =
        ((EndSession drv sess uowCtx (CommitTransaction drv sess uowCtx d3).2).2,
         log3 ++ [DCommitTransaction sess uowCtx; DEndSession sess uowCtx]) /\
      trace run = [CallCtx ctx; CallFn uowCtx; CallCommit uowCtx]
  | Some e =>
      errors.Is (result run) (Some e) = true /\
      world run =
        ((EndSession drv sess uowCtx (AbortTransaction drv sess uowCtx d3).2).2,
         log3 ++ [DAbortTransaction sess uowCtx; DEndSession sess uowCtx]) /\
      trace run = [CallCtx ctx; CallFn uowCtx; CallRollback uowCtx]
  end.
Proof.
  intros Hlaw H1 H2 Hf uowCtx run.
  assert (Hc : Ctx (runner (New (MongoTx_Runner drv m))) ctx (d, log) =
               ((uowCtx, None),
                (d2, log ++ [DStartSession (client m); DStartTransaction sess]))).
  { cbn; unfold logged; cbn.
    rewrite (MongoTx_Ctx_started ctx _ _ _ _ H1 H2). reflexivity. }
  destruct r as [e|]; subst run.
  - assert (Hr : Rollback (runner (New (MongoTx_Runner drv m))) uowCtx (d3, log3) =
                 ((AbortTransaction drv sess uowCtx d3).1,
                  ((EndSession drv sess uowCtx
                      (AbortTransaction drv sess uowCtx d3).2).2,
                   log3 ++ [DAbortTransaction sess uowCtx;
                            DEndSession sess uowCtx]))).
    { cbn; unfold logged; cbn.
      rewrite (MongoTx_Rollback_with_session drv m uowCtx sess d3 (Hlaw _ _)).
      reflexivity. }
    destruct (AbortTransaction drv sess uowCtx d3) as [[rb|] d4] eqn:Ha;
      cbn [fst snd] in Hr.
    + rewrite (Run_rollback_failed _ _ _ _ _ _ _ _ _ _ Hc Hf Hr).
      split; [apply is_wrapped, is_refl | split; reflexivity].
    + rewrite (Run_rolled_back _ _ _ _ _ _ _ _ _ Hc Hf Hr).
      split; [apply is_refl | split; reflexivity].
  - rewrite (Run_committed _ _ _ _ _ _ _ Hc Hf).
    cbn; unfold logged; cbn.
    rewrite (MongoTx_Commit_with_session drv m uowCtx sess d3 (Hlaw _ _)).
    repeat split.
Qed.


End MongoFurther.

(** ** The mock runner and its store *)

Lemma value_at_insert_ne (h : store) (p q : ptr) (st : State) :
  p <> q -> value_at (<[p := st]> h) q = value_at h q.
Proof. intros Hne. unfold value_at, store in *. now rewrite lookup_insert_ne. Qed.

Lemma MockTx_Commit_appends (t : MockTx) (ctx : context) (h : store) :
  MockTx_Commit t ctx h =
    (None, <[state t := {| value := value_at h (state t) +:+ " commited!" |}]> h).
Proof. reflexivity. Qed.

Lemma NewMockTx_state_fresh (h : store) : h !! state (NewMockTx h).1 = None.
Proof.
  unfold NewMockTx, store in *; cbn. apply not_elem_of_dom, is_fresh.
Qed.

Lemma NewMockTx_distinct (h : store) :
  state (NewMockTx (NewMockTx h).2).1 <> state (NewMockTx h).1.
Proof.
  intros Heq. pose proof (NewMockTx_state_fresh (NewMockTx h).2) as Hf.
  rewrite Heq in Hf. unfold NewMockTx, store in *; cbn in Hf.
  rewrite lookup_insert_eq in Hf. discriminate.
Qed.

(** What a [Run] over the mock does to the store, given what the function
    did. *)
Lemma MockTx_Run_world (t : MockTx) (ctx : context)
    (fn : context -> store -> option error * store) (h h' : store) r :
  fn ctx h = (r, h') ->
  UoW_Run (New (MockTx_Runner t)) ctx fn h =
    (r,
     <[state t := {| value := value_at h' (state t) +:+
                     match r with
                     | None => " commited!"
                     | Some _ => " rolled back!"
                     end |}]> h',
     [CallCtx ctx; CallFn ctx;
      match r with None => CallCommit ctx | Some _ => CallRollback ctx end]).
Proof.
  intros Hf. destruct r as [e|].
  - exact (Run_rolled_back (New (MockTx_Runner t)) ctx fn ctx h h h' _ e
             eq_refl Hf (MockTx_Rollback_appends t ctx h')).
  - rewrite (Run_committed (New (MockTx_Runner t)) ctx fn ctx h h h' eq_refl Hf).
    reflexivity.
Qed.

(** X9: a [Run] over the mock runner never fails by itself and hands the
    caller's context to the function unchanged: it returns what the
    function returned, appends " commited!" (on nil) or " rolled back!"
    (on an error) to the value the function left in the runner's [State],
    and changes no other object of the store. *)
Theorem MockTx_Run_outcome (t : MockTx) (ctx : context)
    (fn : context -> store -> option error * store) (h h' : store) r :
  fn ctx h = (r, h') ->
  result (UoW_Run (New (MockTx_Runner t)) ctx fn h) = r /\
  trace (UoW_Run (New (MockTx_Runner t)) ctx fn h) =
    [CallCtx ctx; CallFn ctx;
     match r with None => CallCommit ctx | Some _ => CallRollback ctx end] /\
  (State_Value (state t)
     (world (UoW_Run (New (MockTx_Runner t)) ctx fn h))).1 =
    value_at h' (state t) +:+
    match r with None => " commited!" | Some _ => " rolled back!" end /\
  (forall p, p <> state t ->
     world (UoW_Run (New (MockTx_Runner t)) ctx fn h) !! p = h' !! p).
Proof.
  intros Hf. rewrite (MockTx_Run_world t ctx fn h h' r Hf).
  unfold result, world, trace, State_Value; cbn [fst snd].
  split; [reflexivity |]. split; [reflexivity |]. split.
  - now rewrite value_at_insert.
  - intros p Hp. unfold store in *. now rewrite lookup_insert_ne.
Qed.

(** X10: [NewMockTx] allocates: the [State] of the new runner is at an
    address that held nothing, it holds the empty string, the objects
    already in the store are as they were, and a second [NewMockTx] gets
    a different [State]. *)
Theorem NewMockTx_fresh (h : store) :
  h !! state (NewMockTx h).1 = None /\
  (State_Value (state (NewMockTx h).1) (NewMockTx h).2).1 = "" /\
  (forall p, p <> state (NewMockTx h).1 -> (NewMockTx h).2 !! p = h !! p) /\
  state (NewMockTx (NewMockTx h).2).1 <> state (NewMockTx h).1.
Proof.
  split; [apply NewMockTx_state_fresh |]. split.
  { unfold NewMockTx, State_Value; cbn [fst snd state].
    now rewrite value_at_insert. }
  split; [| apply NewMockTx_distinct].
  intros p Hp. unfold NewMockTx, store in *; cbn in *.
  now rewrite lookup_insert_ne.
Qed.

(** X11: the methods of [State] on the store.  [Value] reads back what
    [SetValue] wrote and changes nothing; a second [SetValue] replaces
    the first; [Commit] and [Rollback] append their mark to the current
    value, so after both the value carries both marks in that order; and
    a write through one pointer is not seen through another. *)
Theorem State_methods (s : ptr) (str str' : string) (h : store) :
  State_Value s (State_SetValue s str h).2 = (str, (State_SetValue s str h).2) /\
  (State_SetValue s str (State_SetValue s str' h).2).2 =
    (State_SetValue s str h).2 /\
  (State_Value s (State_Commit s h).2).1 = value_at h s +:+ " commited!" /\
  (State_Value s (State_Rollback s (State_Commit s h).2).2).1 =
    (value_at h s +:+ " commited!") +:+ " rolled back!" /\
  (forall q, q <> s ->
     (State_Value q (State_SetValue s str h).2).1 = (State_Value q h).1 /\
     (State_Value q (State_Commit s h).2).1 = (State_Value q h).1 /\
     (State_Value q (State_Rollback s h).2).1 = (State_Value q h).1).
Proof.
  unfold State_Value, State_SetValue, State_Commit, State_Rollback;
    cbn [fst snd].
  split; [now rewrite value_at_insert |].
  split; [unfold store in *; now rewrite insert_insert_eq |].
  split; [now rewrite value_at_insert |].
  split; [now rewrite !value_at_insert |].
  intros q Hq. rewrite !value_at_insert_ne by congruence. auto.
Qed.

(** X12: two mock runners made one after the other do not share their
    [State]: a [Run] over the first, with a function that leaves the
    second runner's object alone, leaves the second runner's value
    empty. *)
Theorem MockTx_runners_independent (h : store) (ctx : context)
    (fn : context -> store -> option error * store) r (h' : store) :
  let a := NewMockTx h in
  let b := NewMockTx a.2 in
  fn ctx b.2 = (r, h') ->
  h' !! state b.1 = b.2 !! state b.1 ->
  (State_Value (state b.1)
     (world (UoW_Run (New (MockTx_Runner a.1)) ctx fn b.2))).1 = "".
Proof.
  intros a b Hf Hkeep.
  rewrite (MockTx_Run_world a.1 ctx fn b.2 h' r Hf).
  unfold world, State_Value; cbn [fst snd].
  rewrite value_at_insert_ne by (intros Heq; apply (NewMockTx_distinct h); auto).
  unfold value_at. rewrite Hkeep.
  subst b. unfold NewMockTx at 1 2; cbn [fst snd state].
  unfold store in *. now rewrite lookup_insert_eq.
Qed.

(** ** The further properties on concrete runs *)

Lemma MongoTx_Ctx_session_failure_witness :
  MongoTx_Ctx (SimDriver connect_fails) sim_tx Background fresh_server =
    ((nil_ctx, Some ErrConnect), fresh_server, [DStartSession sim_client]).
Proof.
  exact (proj1 (MongoTx_Ctx_session_failure (SimDriver connect_fails) sim_tx
                  Background fresh_server no_session ErrConnect fresh_server
                  eq_refl)).
Defined.

Lemma MongoTx_Run_transaction_failure_witness :
  errors.fmt_v
    (result (UoW_Run (sim_uow txn_fails) Background passing_fn sim_start)) =
  "failed to start transaction: error in starting transaction: transactions not supported".
Proof.
  exact (proj1 (MongoTx_Run_transaction_failure (SimDriver txn_fails) sim_tx
                  Background passing_fn fresh_server [] sim_session _ ErrTxn _
                  ErrTxn eq_refl eq_refl eq_refl)).
Defined.

Lemma MongoTx_Ctx_success_witness :
  MongoTx_Get (SimDriver no_faults) sim_tx
    (result (MongoTx_Ctx (SimDriver no_faults) sim_tx Background fresh_server)).1
  = any_Database {| db_client := sim_client; db_name := "orders" |}.
Proof.
  exact (proj2 (MongoTx_Ctx_success (SimDriver no_faults) sim_tx Background
                  fresh_server sim_session _ _
                  (fun c s => eq_refl) eq_refl eq_refl)).
Defined.

Lemma MongoTx_Run_ends_session_witness :
  world (UoW_Run (sim_uow abort_fails) Background failing_fn sim_start) =
    ({| next_session := 1; open_sessions := []; committed := []; aborted := [] |},
     [DStartSession sim_client; DStartTransaction sim_session;
      DAbortTransaction sim_session sim_scoped;
      DEndSession sim_session sim_scoped]).
Proof.
  pose proof (MongoTx_Run_ends_session (SimDriver abort_fails) sim_tx
                Background failing_fn fresh_server [] sim_session _ _
                (Some ErrRollback) _ _
                (fun c s => eq_refl) eq_refl eq_refl eq_refl) as (_ & Hw & _).
  exact Hw.
Defined.


Lemma MockTx_Run_outcome_witness :
  (State_Value 0
     (world (UoW_Run (New (MockTx_Runner {| state := 0 |})) Background
               (TestCommit_fn (New (MockTx_Runner {| state := 0 |})))
               {[ 0 := {| value := "" |} ]}))).1
  = "test state" +:+ " commited!".
Proof.
  exact (proj1 (proj2 (proj2
    (MockTx_Run_outcome {| state := 0 |} Background
       (TestCommit_fn (New (MockTx_Runner {| state := 0 |})))
       {[ 0 := {| value := "" |} ]}
       (<[ 0 := {| value := "test state" |} ]> {[ 0 := {| value := "" |} ]})
       None eq_refl)))).
Defined.

Lemma MockTx_runners_independent_witness :
  (State_Value (state (NewMockTx (NewMockTx ∅).2).1)
     (world (UoW_Run (New (MockTx_Runner (NewMockTx ∅).1)) Background
               (TestCommit_fn (New (MockTx_Runner (NewMockTx ∅).1)))
               (NewMockTx (NewMockTx ∅).2).2))).1 = "".
Proof.
  eapply (MockTx_runners_independent ∅ Background
            (TestCommit_fn (New (MockTx_Runner (NewMockTx ∅).1)))).
  - reflexivity.
  - vm_compute. reflexivity.
Defined.

(** X13: the pattern of the package's tests, for any value and outcome.
    A function that fetches the [State] through [UoW.Get], writes [v]
    with [SetValue] and returns [r] writes to the very object the mock
    runner commits or rolls back: after [Run] the runner's value is [v]
    followed by " commited!" when [r] is nil and by " rolled back!"
    otherwise, and [Run] returns [r]. *)
Theorem Get_SetValue_reaches_runner_state (t : MockTx) (ctx : context)
    (h : store) (v : string) (r : option error) :
  let txs := New (MockTx_Runner t) in
  let fn := fun (c : context) (h0 : store) =>
              let '(a, h1) := effect (UoW_Get txs c) h0 in
              match a with
              | any_State tx => (r, (State_SetValue tx v h1).2)
              | _ => (r, h1)
              end in
  result (UoW_Run txs ctx fn h) = r /\
  (State_Value (state t) (world (UoW_Run txs ctx fn h))).1 =
    v +:+ match r with None => " commited!" | Some _ => " rolled back!" end.
Proof.
  intros txs fn. subst txs.
  rewrite (MockTx_Run_world t ctx fn h (<[state t := {| value := v |}]> h) r
             eq_refl).
  unfold result, world, State_Value; cbn [fst snd].
  split; [reflexivity |]. now rewrite !value_at_insert.
Qed.
